(** * School hub: the enrollment dialog and the teacher edit page

    A shallow embedding of the two presentation units of the repository,
    [EditEnrollmentDialog] and [EditTeacherPage].  A component is a function
    from its props (and, for the dialog, its hook state of the previous
    render) to the element it returns; an event handler is the list of
    calls it makes on its collaborators (console, injected callbacks, toast,
    router), in program order. *)

From Stdlib Require Import String List Bool Arith Lia.
Import ListNotations.
Open Scope string_scope.

(** ** JavaScript values used by both units *)

(** [v || d] for a string that may be [undefined]: the empty string is falsy. *)
Definition js_or (v : option string) (d : string) : string :=
  match v with
  | None => d
  | Some s => if String.eqb s "" then d else s
  end.

(** [`${v}`] for a string that may be [undefined]. *)
Definition js_template (v : option string) : string :=
  match v with
  | None => "undefined"
  | Some s => s
  end.

(** The argument of [toast(...)]; [duration] is absent when not given. *)
Record Toast := {
  title : string;
  description : string;
  duration : option nat
}.

(** An object reference: [Object.is] on two objects compares addresses. *)
Record Ref (A : Type) := { addr : nat; target : A }.
Arguments addr {A} _.
Arguments target {A} _.

Definition option_eqb {A} (eqb : A -> A -> bool) (x y : option A) : bool :=
  match x, y with
  | None, None => true
  | Some a, Some b => eqb a b
  | _, _ => false
  end.

(** ** The enrollment dialog *)

Module Enrollment.

Record Student := {
  id : string;
  name : string;
  admissionNumber : string;
  currentClass : string;
  currentSection : string;
  currentYear : string
}.

Record EnrollmentFormValues := {
  studentId : string;
  academicYear : string;
  class : string;
  section : string;
  rollNumber : string;
  feeStructure : string;
  status : string
}.

Record EditEnrollmentDialogProps := {
  open : bool;
  student : option (Ref Student)
}.

(** The calls the dialog makes on its collaborators.  [onSave] and
    [onOpenChange] are the injected callbacks of the props. *)
Inductive Effect :=
| console_log (label : string) (values : EnrollmentFormValues)
| onSave (enrollmentData : EnrollmentFormValues)
| toast (t : Toast)
| onOpenChange (o : bool).

(** *** The form library, as far as the dialog uses it *)

Inductive FieldName :=
| FstudentId | FacademicYear | Fclass | Fsection
| FrollNumber | FfeeStructure | Fstatus.

Inductive ErrorKind := required | invalid_option.

Record FieldError := { field : FieldName; kind : ErrorKind }.

Inductive SafeParseResult :=
| success (data : EnrollmentFormValues)
| failure (issues : list FieldError).

Definition Schema := EnrollmentFormValues -> SafeParseResult.

(** [values] are the current field values, [errors] the field errors of the
    last submission attempt (revalidation while typing is not modelled). *)
Record FormState := {
  values : EnrollmentFormValues;
  errors : list FieldError
}.

(** [form.reset(v)] *)
Definition form_reset (v : EnrollmentFormValues) (_ : FormState) : FormState :=
  {| values := v; errors := [] |}.

(** [form.handleSubmit(onValid)] with a schema resolver: the handler runs
    only on the parsed data of a successful validation. *)
Definition handleSubmit (schema : Schema)
    (onValid : EnrollmentFormValues -> list Effect)
    (f : FormState) : FormState * list Effect :=
  match schema (values f) with
  | success data => ({| values := values f; errors := [] |}, onValid data)
  | failure issues => ({| values := values f; errors := issues |}, [])
  end.

(** [field.onChange(v)] of the field registered under a name: the value is
    stored.  The errors are handed on as they are; that the library checks
    the changed field again once a submission was attempted, and replaces
    its error, is left out. *)
Definition field_onChange (n : FieldName) (v : string) (f : FormState)
  : FormState :=
  let x := values f in
  let x' :=
    match n with
    | FstudentId =>
      {| studentId := v; academicYear := academicYear x; class := class x;
         section := section x; rollNumber := rollNumber x;
         feeStructure := feeStructure x; status := status x |}
    | FacademicYear =>
      {| studentId := studentId x; academicYear := v; class := class x;
         section := section x; rollNumber := rollNumber x;
         feeStructure := feeStructure x; status := status x |}
    | Fclass =>
      {| studentId := studentId x; academicYear := academicYear x; class := v;
         section := section x; rollNumber := rollNumber x;
         feeStructure := feeStructure x; status := status x |}
    | Fsection =>
      {| studentId := studentId x; academicYear := academicYear x;
         class := class x; section := v; rollNumber := rollNumber x;
         feeStructure := feeStructure x; status := status x |}
    | FrollNumber =>
      {| studentId := studentId x; academicYear := academicYear x;
         class := class x; section := section x; rollNumber := v;
         feeStructure := feeStructure x; status := status x |}
    | FfeeStructure =>
      {| studentId := studentId x; academicYear := academicYear x;
         class := class x; section := section x; rollNumber := rollNumber x;
         feeStructure := v; status := status x |}
    | Fstatus =>
      {| studentId := studentId x; academicYear := academicYear x;
         class := class x; section := section x; rollNumber := rollNumber x;
         feeStructure := feeStructure x; status := v |}
    end in
  {| values := x'; errors := errors f |}.

(** *** The option lists of the component *)

Definition academicYears : list string := ["2024-2025"; "2025-2026"; "2023-2024"].
Definition classes : list string :=
  ["XII"; "XI"; "X"; "IX"; "VIII"; "VII"; "VI"; "V"; "IV"; "III"; "II"; "I"].
Definition sections : list string := ["A"; "B"; "C"; "D"].
Definition feeStructures : list string :=
  [ "Standard Fee - ₹50,000/year";
    "Science Stream - ₹60,000/year";
    "Commerce Stream - ₹55,000/year";
    "Arts Stream - ₹45,000/year" ].

(** *** What the component returns *)

(** A [Select] is described by the field it is bound to and its items; the
    roll number is a free-text [Input]. *)
Inductive Control :=
| Select (items : list string)
| Input.

Record DialogElement := {
  dialog_open : bool;
  dialog_onOpenChange : bool -> list Effect;
  dialogTitle : string;
  dialogDescription : string;
  form_onSubmit : FormState -> FormState * list Effect;
  formFields : list (FieldName * Control);
  cancel_onClick : list Effect
}.

Inductive Rendered :=
| null
| Dialog (el : DialogElement).

(** *** Hook state kept between two renders *)

Definition Deps : Type := option nat * bool.

Definition deps_eqb (a b : Deps) : bool :=
  option_eqb Nat.eqb (fst a) (fst b) && Bool.eqb (snd a) (snd b).

Record Hooks := {
  form : FormState;
  effectDeps : Deps
}.

Section Component.

(** [enrollmentSchema] is imported from [@/schemas/enrollment.schema]. *)
Variable enrollmentSchema : Schema.

Definition defaultValues (student : option Student) : EnrollmentFormValues :=
  {| studentId := js_or (option_map id student) "";
     academicYear := js_or (option_map currentYear student) "2024-2025";
     class := js_or (option_map currentClass student) "";
     section := js_or (option_map currentSection student) "";
     rollNumber := "";
     feeStructure := "";
     status := "enrolled" |}.

(** [useForm({resolver, defaultValues})]: the default values seed the form
    on mount only; later renders return the same form. *)
Definition useForm (defaults : EnrollmentFormValues) (prev : option Hooks)
  : FormState :=
  match prev with
  | None => {| values := defaults; errors := [] |}
  | Some h => form h
  end.

(** [React.useEffect(body, deps)]: the body runs after the first render and
    after every render whose dependencies differ from the previous ones. *)
Definition useEffect_runs (prev : option Hooks) (deps : Deps) : bool :=
  match prev with
  | None => true
  | Some h => negb (deps_eqb (effectDeps h) deps)
  end.

(** The body of the reset effect. *)
Definition resetEffect (student : option Student) (open : bool)
    (f : FormState) : FormState :=
  match student with
  | Some s =>
    if open then
      form_reset
        {| studentId := id s;
           academicYear := currentYear s;
           class := currentClass s;
           section := currentSection s;
           rollNumber := "";
           feeStructure := "";
           status := "enrolled" |} f
    else f
  | None => f
  end.

Definition onSubmit (student : option Student)
    (values : EnrollmentFormValues) : list Effect :=
  [ console_log "Enrollment updated:" values;
    onSave values;
    toast {| title := "Enrollment Updated";
             description :=
               "Enrollment details for "
               ++ js_template (option_map name student)
               ++ " have been updated.";
             duration := Some 5000 |};
    onOpenChange false ].

(** One render of the component followed by its effect.  The [form] object
    among the dependencies is the same on every render, so the dependencies
    that can change are the student reference and [open]. *)
Definition EditEnrollmentDialog (props : EditEnrollmentDialogProps)
    (prev : option Hooks) : Hooks * Rendered :=
  let student := option_map target (student props) in
  let form0 := useForm (defaultValues student) prev in
  let deps := (option_map addr (Enrollment.student props), open props) in
  let form1 :=
    if useEffect_runs prev deps
    then resetEffect student (open props) form0
    else form0 in
  ({| form := form1; effectDeps := deps |},
   match student with
   | None => null
   | Some s =>
     Dialog
       {| dialog_open := open props;
          dialog_onOpenChange := fun o => [onOpenChange o];
          dialogTitle := "Edit Enrollment Details";
          dialogDescription :=
            "Update enrollment information for " ++ name s
            ++ " (Adm: " ++ admissionNumber s ++ ")";
          form_onSubmit := handleSubmit enrollmentSchema (onSubmit student);
          formFields :=
            [ (FacademicYear, Select academicYears);
              (Fclass, Select classes);
              (Fsection, Select sections);
              (FrollNumber, Input);
              (FfeeStructure, Select feeStructures) ];
          cancel_onClick := [onOpenChange false] |}
   end).

(** *** The dialog in use

    The parent renders the component with some props; the user works on what
    was rendered: picks an item of a [Select], types in the [Input], presses
    Save or Cancel.  Nothing can be worked on while the component returned
    [null] or the dialog is closed. *)

Inductive UserEvent :=
| Change (n : FieldName) (v : string)
| Submit
| Cancel.

Inductive Event :=
| Render (props : EditEnrollmentDialogProps)
| User (u : UserEvent).

Record Session := {
  hooks : option Hooks;
  view : Rendered;
  calls : list Effect
}.

Definition initial : Session :=
  {| hooks := None; view := null; calls := [] |}.

Definition FieldName_eqb (a b : FieldName) : bool :=
  match a, b with
  | FstudentId, FstudentId | FacademicYear, FacademicYear
  | Fclass, Fclass | Fsection, Fsection | FrollNumber, FrollNumber
  | FfeeStructure, FfeeStructure | Fstatus, Fstatus => true
  | _, _ => false
  end.

Definition member (v : string) (options : list string) : bool :=
  existsb (String.eqb v) options.

(** Can the user bring field [n] to value [v] with the rendered controls? *)
Definition offered (fields : list (FieldName * Control)) (n : FieldName)
    (v : string) : bool :=
  match find (fun c => FieldName_eqb (fst c) n) fields with
  | Some (_, Select items) => member v items
  | Some (_, Input) => true
  | None => false
  end.

Definition user_step (el : DialogElement) (h : Hooks) (u : UserEvent)
  : Hooks * list Effect :=
  match u with
  | Change n v =>
    if offered (formFields el) n v
    then ({| form := field_onChange n v (form h);
             effectDeps := effectDeps h |}, [])
    else (h, [])
  | Submit =>
    let (f, out) := form_onSubmit el (form h) in
    ({| form := f; effectDeps := effectDeps h |}, out)
  | Cancel => (h, cancel_onClick el)
  end.

Definition step (s : Session) (e : Event) : Session :=
  match e with
  | Render props =>
    let (h, r) := EditEnrollmentDialog props (hooks s) in
    {| hooks := Some h; view := r; calls := calls s |}
  | User u =>
    match view s, hooks s with
    | Dialog el, Some h =>
      if dialog_open el then
        let (h', out) := user_step el h u in
        {| hooks := Some h'; view := view s; calls := calls s ++ out |}
      else s
    | _, _ => s
    end
  end.

Definition run (s : Session) (es : list Event) : Session :=
  fold_left step es s.

End Component.

(** *** The enrollment schema *)

Definition check_enum (n : FieldName) (options : list string) (v : string)
  : list FieldError :=
  if member v options then [] else [{| field := n; kind := invalid_option |}].

Definition enrollment_issues (v : EnrollmentFormValues) : list FieldError :=
  check_enum FacademicYear academicYears (academicYear v)
  ++ check_enum Fclass classes (class v)
  ++ check_enum Fsection sections (section v)
  ++ check_enum FfeeStructure feeStructures (feeStructure v).

(** Modelled from the spec: the schema module [@/schemas/enrollment.schema]
    is not among the sources.  The enumerated fields (academic year, class,
    section, fee structure) must each be one of the fixed option lists; the
    student reference, the roll number (free text) and the status carry no
    constraint; a value that validates is handed on as it is. *)
Definition enrollmentSchema : Schema :=
  fun v =>
    match enrollment_issues v with
    | [] => success v
    | issues => failure issues
    end.

Definition all_enumerated (v : EnrollmentFormValues) : bool :=
  member (academicYear v) academicYears
  && member (class v) classes
  && member (section v) sections
  && member (feeStructure v) feeStructures.

Definition count_onSave (t : list Effect) : nat :=
  length (filter (fun e => match e with onSave _ => true | _ => false end) t).

(** No entry occurs twice. *)
Fixpoint distinct (l : list string) : bool :=
  match l with
  | [] => true
  | x :: r => negb (member x r) && distinct r
  end.

(** *** Values named in the statements below *)

(** The values the reset effect writes for a student. *)
Definition reset_values (s : Student) : EnrollmentFormValues :=
  {| studentId := id s;
     academicYear := currentYear s;
     class := currentClass s;
     section := currentSection s;
     rollNumber := "";
     feeStructure := "";
     status := "enrolled" |}.

(** The confirmation shown after a save. *)
Definition saved_toast (s : Student) : Toast :=
  {| title := "Enrollment Updated";
     description := "Enrollment details for " ++ name s ++ " have been updated.";
     duration := Some 5000 |}.

Definition example_student : Student :=
  {| id := "s1"; name := "A"; admissionNumber := "ADM1";
     currentClass := "X"; currentSection := "B";
     currentYear := "2024-2025" |}.

Definition example_values : EnrollmentFormValues :=
  {| studentId := "s1"; academicYear := "2024-2025"; class := "X";
     section := "B"; rollNumber := "12";
     feeStructure := "Standard Fee - ₹50,000/year"; status := "enrolled" |}.

Definition example_props (o : bool) : EditEnrollmentDialogProps :=
  {| open := o; student := Some {| addr := 0; target := example_student |} |}.

(** *** Shapes of sessions *)

(** The traces built from the two handlers of the dialog: each step appends
    the call of the Cancel button, or the calls of [onSubmit] on data that
    the schema returned for some values. *)
Inductive handler_trace (schema : Schema) : list Effect -> Prop :=
| trace_nil : handler_trace schema []
| trace_cancel (t : list Effect) :
    handler_trace schema t ->
    handler_trace schema (t ++ [onOpenChange false])
| trace_save (t : list Effect) (st : Student) (x d : EnrollmentFormValues) :
    handler_trace schema t ->
    schema x = success d ->
    handler_trace schema (t ++ onSubmit (Some st) d).

(** An event that does not render the dialog open. *)
Definition closed_event (e : Event) : Prop :=
  match e with
  | Render props => open props = false
  | User _ => True
  end.

Definition view_closed (r : Rendered) : Prop :=
  match r with
  | null => True
  | Dialog el => dialog_open el = false
  end.

(** What every session keeps: the view is what the component returned for
    some props, the status held by the form is "enrolled", and the calls
    made so far were made by the two handlers. *)
Definition session_invariant (schema : Schema) (s : Session) : Prop :=
  (exists props prev,
      view s = snd (EditEnrollmentDialog schema props prev)) /\
  (forall h, hooks s = Some h -> status (values (form h)) = "enrolled") /\
  handler_trace schema (calls s).

(** The dependencies of the reset effect for given props. *)
Definition deps_of (props : EditEnrollmentDialogProps) : Deps :=
  (option_map addr (student props), open props).

End Enrollment.

(** ** The teacher edit page *)

Module TeacherEdit.

(** [new Date(iso)], kept as the text it was built from. *)
Inductive JsDate := new_Date (iso : string).

Record SubjectAssignment := {
  subject : string;
  class : string;
  section : string
}.

Record DayAvailability := {
  available : bool;
  from : string;
  to : string
}.

Record Availability := {
  monday : DayAvailability;
  tuesday : DayAvailability;
  wednesday : DayAvailability;
  thursday : DayAvailability;
  friday : DayAvailability;
  saturday : DayAvailability;
  sunday : DayAvailability
}.

Record Teacher := {
  id : string;
  name : string;
  staffId : string;
  department : string;
  role : string;
  phone : string;
  email : string;
  qualification : string;
  photo : string;
  gender : string;
  address : string;
  dob : JsDate;
  joiningDate : JsDate;
  subjects : list SubjectAssignment;
  availability : Availability
}.

(** *** The mock teacher data *)

Definition teacher_1 : Teacher :=
  {| id := "1";
     name := "Dr. Rahul Sharma";
     staffId := "TCH001";
     department := "Science";
     role := "Head of Department";
     phone := "9876543210";
     email := "rahul.sharma@school.edu";
     qualification := "Ph.D. Physics";
     photo := "";
     gender := "Male";
     address := "123 Education Street, Academic Colony, New Delhi";
     dob := new_Date "1980-05-15";
     joiningDate := new_Date "2010-06-01";
     subjects :=
       [ {| subject := "Physics"; class := "Class 11"; section := "A" |};
         {| subject := "Physics"; class := "Class 12"; section := "A" |};
         {| subject := "Science"; class := "Class 10"; section := "B" |} ];
     availability :=
       {| monday := {| available := true; from := "09:00"; to := "15:00" |};
          tuesday := {| available := true; from := "09:00"; to := "15:00" |};
          wednesday := {| available := true; from := "09:00"; to := "15:00" |};
          thursday := {| available := true; from := "09:00"; to := "15:00" |};
          friday := {| available := true; from := "09:00"; to := "13:00" |};
          saturday := {| available := false; from := ""; to := "" |};
          sunday := {| available := false; from := ""; to := "" |} |} |}.

Definition teacher_2 : Teacher :=
  {| id := "2";
     name := "Priya Patel";
     staffId := "TCH002";
     department := "Mathematics";
     role := "Senior Teacher";
     phone := "9876543211";
     email := "priya.patel@school.edu";
     qualification := "M.Sc. Mathematics";
     photo := "";
     gender := "Female";
     address := "456 Knowledge Park, Faculty Housing, Mumbai";
     dob := new_Date "1985-03-22";
     joiningDate := new_Date "2012-07-15";
     subjects :=
       [ {| subject := "Mathematics"; class := "Class 9"; section := "A" |};
         {| subject := "Mathematics"; class := "Class 10"; section := "A" |};
         {| subject := "Mathematics"; class := "Class 8"; section := "B" |} ];
     availability :=
       {| monday := {| available := true; from := "08:30"; to := "14:30" |};
          tuesday := {| available := true; from := "08:30"; to := "14:30" |};
          wednesday := {| available := true; from := "08:30"; to := "12:30" |};
          thursday := {| available := true; from := "08:30"; to := "14:30" |};
          friday := {| available := true; from := "08:30"; to := "14:30" |};
          saturday := {| available := false; from := ""; to := "" |};
          sunday := {| available := false; from := ""; to := "" |} |} |}.

Definition teacher_3 : Teacher :=
  {| id := "3";
     name := "Anil Kumar";
     staffId := "TCH003";
     department := "Languages";
     role := "Teacher";
     phone := "9876543212";
     email := "anil.kumar@school.edu";
     qualification := "M.A. English";
     photo := "";
     gender := "Male";
     address := "789 Literature Lane, Faculty Quarters, Bangalore";
     dob := new_Date "1982-11-10";
     joiningDate := new_Date "2015-03-20";
     subjects :=
       [ {| subject := "English"; class := "Class 9"; section := "A" |};
         {| subject := "English"; class := "Class 10"; section := "B" |};
         {| subject := "Hindi"; class := "Class 8"; section := "C" |} ];
     availability :=
       {| monday := {| available := true; from := "09:00"; to := "15:00" |};
          tuesday := {| available := true; from := "09:00"; to := "15:00" |};
          wednesday := {| available := true; from := "09:00"; to := "15:00" |};
          thursday := {| available := true; from := "09:00"; to := "15:00" |};
          friday := {| available := true; from := "09:00"; to := "15:00" |};
          saturday := {| available := false; from := ""; to := "" |};
          sunday := {| available := false; from := ""; to := "" |} |} |}.

Definition teacher_4 : Teacher :=
  {| id := "4";
     name := "Sunita Reddy";
     staffId := "TCH004";
     department := "Social Studies";
     role := "Teacher";
     phone := "9876543213";
     email := "sunita.reddy@school.edu";
     qualification := "M.A. History";
     photo := "";
     gender := "Female";
     address := "101 History Avenue, Teacher Colony, Chennai";
     dob := new_Date "1987-04-25";
     joiningDate := new_Date "2016-08-05";
     subjects :=
       [ {| subject := "History"; class := "Class 9"; section := "A" |};
         {| subject := "Geography"; class := "Class 10"; section := "B" |};
         {| subject := "Social Studies"; class := "Class 8"; section := "A" |} ];
     availability :=
       {| monday := {| available := true; from := "09:00"; to := "15:00" |};
          tuesday := {| available := true; from := "09:00"; to := "15:00" |};
          wednesday := {| available := true; from := "09:00"; to := "15:00" |};
          thursday := {| available := true; from := "09:00"; to := "15:00" |};
          friday := {| available := true; from := "09:00"; to := "15:00" |};
          saturday := {| available := false; from := ""; to := "" |};
          sunday := {| available := false; from := ""; to := "" |} |} |}.

Definition teacher_5 : Teacher :=
  {| id := "5";
     name := "Rajesh Gupta";
     staffId := "TCH005";
     department := "Administration";
     role := "Principal";
     phone := "9876543214";
     email := "rajesh.gupta@school.edu";
     qualification := "Ph.D. Education";
     photo := "";
     gender := "Male";
     address := "202 Admin Block, School Campus, Hyderabad";
     dob := new_Date "1975-09-30";
     joiningDate := new_Date "2008-01-15";
     subjects := [];
     availability :=
       {| monday := {| available := true; from := "08:00"; to := "16:00" |};
          tuesday := {| available := true; from := "08:00"; to := "16:00" |};
          wednesday := {| available := true; from := "08:00"; to := "16:00" |};
          thursday := {| available := true; from := "08:00"; to := "16:00" |};
          friday := {| available := true; from := "08:00"; to := "16:00" |};
          saturday := {| available := false; from := ""; to := "" |};
          sunday := {| available := false; from := ""; to := "" |} |} |}.

Definition teachers : list Teacher :=
  [ teacher_1; teacher_2; teacher_3; teacher_4; teacher_5 ].

(** [t.id === id], where the route parameter may be [undefined]. *)
Definition id_matches (id : option string) (t : Teacher) : bool :=
  match id with
  | Some i => String.eqb (TeacherEdit.id t) i
  | None => false
  end.

Section Page.

(** [TeacherFormValues] is imported from [@/schemas/teacher.schema]; the
    page reads nothing of it but [data.name]. *)
Variable TeacherFormValues : Type.
Variable data_name : TeacherFormValues -> string.

(** The calls the page makes on its collaborators. *)
Inductive Effect :=
| console_log (label : string) (data : TeacherFormValues)
| toast (t : Toast)
| navigate (target : string).

(** The props handed to [EditTeacherForm]. *)
Record EditTeacherFormProps := {
  teacher : Teacher;
  onSubmit : TeacherFormValues -> list Effect;
  onCancel : list Effect
}.

Record PageElement := {
  layout_title : string;
  back_onClick : list Effect;
  heading : string;
  editForm : EditTeacherFormProps
}.

Inductive Rendered :=
| null
| AppLayout (el : PageElement).

Definition handleSubmit (id : option string) (data : TeacherFormValues)
  : list Effect :=
  [ console_log "Updated teacher data:" data;
    toast {| title := "Teacher Updated";
             description :=
               data_name data ++ "'s information has been updated successfully.";
             duration := None |};
    navigate ("/teachers/" ++ js_template id) ].

(** One render of the page for the route parameter [id]: the calls made
    while rendering, and the element returned. *)
Definition EditTeacherPage (id : option string) : list Effect * Rendered :=
  let teacher := find (id_matches id) teachers in
  match teacher with
  | None => ([navigate "/teachers"], null)
  | Some t =>
    ([],
     AppLayout
       {| layout_title := "Edit Teacher: " ++ name t;
          back_onClick := [navigate ("/teachers/" ++ js_template id)];
          heading := "Edit Teacher Profile";
          editForm :=
            {| teacher := t;
               onSubmit := handleSubmit id;
               onCancel := [navigate ("/teachers/" ++ js_template id)] |} |})
  end.

(** Does a trace contain the calls of one run of [handleSubmit]? *)
Definition invokes_handleSubmit (t : list Effect) : Prop :=
  exists id data pre post, t = (pre ++ handleSubmit id data ++ post)%list.

(** The toasts of a trace, in order. *)
Definition toasts_of (t : list Effect) : list Toast :=
  flat_map (fun e => match e with toast x => [x] | _ => [] end) t.

(** The targets handed to the router by a trace, in order. *)
Definition navigations (t : list Effect) : list string :=
  flat_map (fun e => match e with navigate x => [x] | _ => [] end) t.

End Page.

Arguments navigations {TeacherFormValues} t.
Arguments heading {TeacherFormValues} _.
Arguments console_log {TeacherFormValues} label data.
Arguments toast {TeacherFormValues} t.
Arguments navigate {TeacherFormValues} target.
Arguments null {TeacherFormValues}.
Arguments AppLayout {TeacherFormValues} el.
Arguments teacher {TeacherFormValues} _.
Arguments onSubmit {TeacherFormValues} _ _.
Arguments onCancel {TeacherFormValues} _.
Arguments editForm {TeacherFormValues} _.
Arguments back_onClick {TeacherFormValues} _.
Arguments layout_title {TeacherFormValues} _.
Arguments toasts_of {TeacherFormValues} t.

(** *** The router, as far as the page uses it *)

(** The state behind [useNavigate()]: the current location, and whether the
    component holding the [navigate] function has been committed.  The
    function acts only then; called while its component renders for the
    first time it returns without navigating. *)
Record Router := {
  location : string;
  active : bool
}.

Definition router_navigate (r : Router) (target : string) : Router :=
  if active r then {| location := target; active := true |} else r.

Section Routed.

Variable TeacherFormValues : Type.
Variable data_name : TeacherFormValues -> string.

(** The router after the calls of a trace. *)
Definition router_run (r : Router) (t : list (Effect TeacherFormValues))
  : Router :=
  fold_left
    (fun r e => match e with navigate x => router_navigate r x | _ => r end)
    t r.

(** One render of the page under a router; the commit that follows makes
    [navigate] act. *)
Definition render_in (r : Router) (id : option string)
  : Router * Rendered TeacherFormValues :=
  let (calls, view) := EditTeacherPage TeacherFormValues data_name id in
  let r' := router_run r calls in
  ({| location := location r'; active := true |}, view).

(** The first render of the page, reached at location [loc]. *)
Definition mount (loc : string) (id : option string)
  : Router * Rendered TeacherFormValues :=
  render_in {| location := loc; active := false |} id.

End Routed.

(** *** Values named in the statements below *)

(** Form values that carry a name only, with [data.name] read off. *)
Definition NameOnly : Type := string.
Definition NameOnly_name (d : NameOnly) : string := d.

End TeacherEdit.

(** * Properties of the enrollment dialog *)

Module EnrollmentSpec.
Import Enrollment.

(** ** Membership and the schema *)

Lemma member_In (v : string) (l : list string) :
  member v l = true <-> In v l.
Proof.
  unfold member. rewrite existsb_exists. split.
  - intros [x [Hin Heq]]. apply String.eqb_eq in Heq. now subst.
  - intros Hin. exists v. split; [assumption | apply String.eqb_refl].
Qed.

Lemma enrollment_issues_nil (v : EnrollmentFormValues) :
  enrollment_issues v = [] <-> all_enumerated v = true.
Proof.
  unfold enrollment_issues, all_enumerated, check_enum.
  destruct (member (academicYear v) academicYears);
    destruct (member (class v) classes);
    destruct (member (section v) sections);
    destruct (member (feeStructure v) feeStructures);
    simpl; split; intros H; try reflexivity; discriminate H.
Qed.

Lemma enrollmentSchema_success (v d : EnrollmentFormValues) :
  enrollmentSchema v = success d -> d = v /\ all_enumerated v = true.
Proof.
  unfold enrollmentSchema. intros H.
  destruct (enrollment_issues v) eqn:E; [| discriminate H].
  injection H as <-. split; [reflexivity | now apply enrollment_issues_nil].
Qed.

Lemma enrollmentSchema_accepts (v : EnrollmentFormValues) :
  all_enumerated v = true -> enrollmentSchema v = success v.
Proof.
  intros H. apply enrollment_issues_nil in H.
  unfold enrollmentSchema. now rewrite H.
Qed.

Lemma enrollmentSchema_rejects (v : EnrollmentFormValues) :
  all_enumerated v = false ->
  enrollmentSchema v = failure (enrollment_issues v) /\ enrollment_issues v <> [].
Proof.
  intros H. unfold enrollmentSchema.
  destruct (enrollment_issues v) eqn:E.
  - apply enrollment_issues_nil in E. congruence.
  - split; [reflexivity | discriminate].
Qed.

Lemma enrollment_issues_kind (v : EnrollmentFormValues) (e : FieldError) :
  In e (enrollment_issues v) -> kind e = invalid_option.
Proof.
  unfold enrollment_issues, check_enum. intros H.
  repeat (apply in_app_or in H; destruct H as [H | H]);
    match type of H with
    | In _ (if ?b then _ else _) => destruct b
    end; simpl in H; intuition (subst; reflexivity).
Qed.

Lemma schema_success_members (v d : EnrollmentFormValues) :
  enrollmentSchema v = success d ->
  In (academicYear v) academicYears /\
  In (class v) classes /\
  In (section v) sections /\
  In (feeStructure v) feeStructures.
Proof.
  intros H. apply enrollmentSchema_success in H. destruct H as [_ H].
  unfold all_enumerated in H.
  apply andb_prop in H. destruct H as [H Hf].
  apply andb_prop in H. destruct H as [H Hs].
  apply andb_prop in H. destruct H as [Hy Hc].
  repeat split; now apply member_In.
Qed.

Lemma distinct_NoDup (l : list string) : distinct l = true -> NoDup l.
Proof.
  induction l as [| x r IH]; simpl; intros H; constructor.
  - apply andb_prop in H. destruct H as [H _].
    intros Hin. apply member_In in Hin. rewrite Hin in H. discriminate H.
  - apply IH. apply andb_prop in H. apply H.
Qed.

(** ** The form library model, for any schema *)

Section AnySchema.

Variable schema : Schema.

Lemma handleSubmit_success (onValid : EnrollmentFormValues -> list Effect)
    (f : FormState) (d : EnrollmentFormValues) :
  schema (values f) = success d ->
  handleSubmit schema onValid f
  = ({| values := values f; errors := [] |}, onValid d).
Proof. intros H. unfold handleSubmit. now rewrite H. Qed.

Lemma handleSubmit_failure (onValid : EnrollmentFormValues -> list Effect)
    (f : FormState) (issues : list FieldError) :
  schema (values f) = failure issues ->
  handleSubmit schema onValid f
  = ({| values := values f; errors := issues |}, []).
Proof. intros H. unfold handleSubmit. now rewrite H. Qed.

(** With a student in the props the component returns the dialog. *)
Lemma render_with_student (p : EditEnrollmentDialogProps)
    (prev : option Hooks) (s : Ref Student) :
  student p = Some s ->
  exists el,
    snd (EditEnrollmentDialog schema p prev) = Dialog el /\
    dialog_open el = open p /\
    form_onSubmit el = handleSubmit schema (onSubmit (Some (target s))) /\
    cancel_onClick el = [onOpenChange false].
Proof.
  intros H. unfold EditEnrollmentDialog. rewrite H. simpl.
  eexists. split; [reflexivity |]. simpl. repeat split.
Qed.

Lemma onSubmit_calls (s : Student) (v : EnrollmentFormValues) :
  onSubmit (Some s) v
  = [ console_log "Enrollment updated:" v; onSave v;
      toast (saved_toast s); onOpenChange false ].
Proof. reflexivity. Qed.

Lemma useEffect_runs_on_open (prev : option Hooks) (a : option nat) :
  (forall h, prev = Some h -> snd (effectDeps h) = false) ->
  useEffect_runs prev (a, true) = true.
Proof.
  intros H. destruct prev as [h |]; [| reflexivity].
  unfold useEffect_runs, deps_eqb. simpl.
  rewrite (H h eq_refl). simpl. now rewrite andb_false_r.
Qed.

End AnySchema.

(** ** Saving *)

(** C1: a submission whose values pass the schema calls [onSave] exactly
    once, with the validated values, which are the values held by the form;
    the calls made are, in order: the console log, [onSave], the toast whose
    text names the student, and [onOpenChange(false)]. *)
Theorem submit_valid_saves_toasts_closes
    (p : EditEnrollmentDialogProps) (prev : option Hooks) (s : Ref Student)
    (f : FormState) (v : EnrollmentFormValues) :
  student p = Some s ->
  enrollmentSchema (values f) = success v ->
  exists el,
    snd (EditEnrollmentDialog enrollmentSchema p prev) = Dialog el /\
    v = values f /\
    snd (form_onSubmit el f)
    = [ console_log "Enrollment updated:" v;
        onSave v;
        toast {| title := "Enrollment Updated";
                 description :=
                   "Enrollment details for " ++ name (target s)
                   ++ " have been updated.";
                 duration := Some 5000 |};
        onOpenChange false ] /\
    count_onSave (snd (form_onSubmit el f)) = 1.
Proof.
  intros Hs Hv.
  destruct (render_with_student enrollmentSchema p prev s Hs)
    as [el [Hel [_ [Hsub _]]]].
  exists el. split; [exact Hel |].
  destruct (enrollmentSchema_success _ _ Hv) as [Hd _].
  split; [exact Hd |].
  rewrite Hsub, (handleSubmit_success _ _ _ _ Hv). simpl.
  split; reflexivity.
Qed.

Lemma submit_valid_saves_toasts_closes_witness :
  exists el,
    snd (EditEnrollmentDialog enrollmentSchema (example_props true) None)
    = Dialog el /\
    example_values = example_values /\
    snd (form_onSubmit el {| values := example_values; errors := [] |})
    = [ console_log "Enrollment updated:" example_values;
        onSave example_values;
        toast {| title := "Enrollment Updated";
                 description := "Enrollment details for A have been updated.";
                 duration := Some 5000 |};
        onOpenChange false ] /\
    count_onSave
      (snd (form_onSubmit el {| values := example_values; errors := [] |}))
    = 1.
Proof.
  exact (submit_valid_saves_toasts_closes
           (example_props true) None
           {| addr := 0; target := example_student |}
           {| values := example_values; errors := [] |}
           example_values eq_refl eq_refl).
Defined.

(** ** Opening *)

(** C2: when a render has [open] true and a student S, and the previous
    render (if there was one) had [open] false, the form afterwards holds
    S's identifier, year, class and section, an empty roll number, an empty
    fee structure and the status "enrolled", and no errors, whatever it
    held before. *)
Theorem open_resets_form
    (schema : Schema) (p : EditEnrollmentDialogProps) (prev : option Hooks)
    (s : Ref Student) :
  student p = Some s ->
  open p = true ->
  (forall h, prev = Some h -> snd (effectDeps h) = false) ->
  form (fst (EditEnrollmentDialog schema p prev))
  = {| values :=
         {| studentId := id (target s);
            academicYear := currentYear (target s);
            class := currentClass (target s);
            section := currentSection (target s);
            rollNumber := "";
            feeStructure := "";
            status := "enrolled" |};
       errors := [] |}.
Proof.
  intros Hs Ho Hprev. unfold EditEnrollmentDialog.
  rewrite Hs, Ho. simpl.
  now rewrite (useEffect_runs_on_open prev (Some (addr s)) Hprev).
Qed.

Lemma open_resets_form_witness :
  form (fst (EditEnrollmentDialog enrollmentSchema (example_props true)
               (Some {| form :=
                          {| values := example_values;
                             errors := [{| field := FfeeStructure;
                                           kind := invalid_option |}] |};
                        effectDeps := (Some 0, false) |})))
  = {| values :=
         {| studentId := "s1"; academicYear := "2024-2025"; class := "X";
            section := "B"; rollNumber := ""; feeStructure := "";
            status := "enrolled" |};
       errors := [] |}.
Proof.
  apply (open_resets_form enrollmentSchema (example_props true) _
           {| addr := 0; target := example_student |});
    [reflexivity | reflexivity |].
  intros h Hh. injection Hh as <-. reflexivity.
Defined.

(** ** Rejected submissions *)

(** C3: when a value of the form lies outside its option list, or the
    schema rejects the values for any reason, submitting calls nothing (so
    [onSave] is not called) and leaves the schema's issues, of which there
    is at least one, each an invalid option of some field, as the errors of
    the form. *)
Theorem submit_invalid_is_blocked
    (p : EditEnrollmentDialogProps) (prev : option Hooks) (s : Ref Student)
    (f : FormState) :
  student p = Some s ->
  all_enumerated (values f) = false
  \/ (exists issues, enrollmentSchema (values f) = failure issues) ->
  exists el issues,
    snd (EditEnrollmentDialog enrollmentSchema p prev) = Dialog el /\
    enrollmentSchema (values f) = failure issues /\
    issues <> [] /\
    (forall e, In e issues -> kind e = invalid_option) /\
    form_onSubmit el f = ({| values := values f; errors := issues |}, []) /\
    count_onSave (snd (form_onSubmit el f)) = 0.
Proof.
  intros Hs Hbad.
  destruct (render_with_student enrollmentSchema p prev s Hs)
    as [el [Hel [_ [Hsub _]]]].
  assert (Hfail : all_enumerated (values f) = false).
  { destruct Hbad as [H | [issues H]]; [exact H |].
    destruct (all_enumerated (values f)) eqn:E; [| reflexivity].
    rewrite (enrollmentSchema_accepts _ E) in H. discriminate H. }
  destruct (enrollmentSchema_rejects _ Hfail) as [Hrej Hne].
  exists el, (enrollment_issues (values f)).
  rewrite Hsub, (handleSubmit_failure _ _ _ _ Hrej).
  split; [exact Hel |]. split; [exact Hrej |]. split; [exact Hne |].
  split; [apply enrollment_issues_kind |]. split; reflexivity.
Qed.

Lemma submit_invalid_is_blocked_witness :
  exists el issues,
    snd (EditEnrollmentDialog enrollmentSchema (example_props true) None)
    = Dialog el /\
    enrollmentSchema (reset_values example_student) = failure issues /\
    issues <> [] /\
    (forall e, In e issues -> kind e = invalid_option) /\
    form_onSubmit el {| values := reset_values example_student; errors := [] |}
    = ({| values := reset_values example_student; errors := issues |}, []) /\
    count_onSave
      (snd (form_onSubmit el
              {| values := reset_values example_student; errors := [] |}))
    = 0.
Proof.
  exact (submit_invalid_is_blocked
           (example_props true) None
           {| addr := 0; target := example_student |}
           {| values := reset_values example_student; errors := [] |}
           eq_refl (or_introl eq_refl)).
Defined.

(** ** The worked example *)


(** ** No student *)

(** C6: rendered without a student, whatever [open] is and whatever came
    before, the component returns [null], makes no call, leaves the form as
    it was (as seeded, on the first render), and offers nothing the user
    could act on. *)
Theorem no_student_renders_nothing
    (schema : Schema) (o : bool) (s : Session) (u : UserEvent) :
  let s' := step schema s (Render {| open := o; student := None |}) in
  view s' = null /\
  calls s' = calls s /\
  option_map form (hooks s')
  = Some (match hooks s with
          | Some h => form h
          | None =>
            {| values :=
                 {| studentId := ""; academicYear := "2024-2025"; class := "";
                    section := ""; rollNumber := ""; feeStructure := "";
                    status := "enrolled" |};
               errors := [] |}
          end) /\
  step schema s' (User u) = s'.
Proof.
  simpl. unfold EditEnrollmentDialog. simpl.
  repeat split.
  destruct (hooks s) as [h |]; simpl.
  - now destruct (negb (deps_eqb (effectDeps h) (None, o))).
  - reflexivity.
Qed.

(** ** The option lists *)

(** C7: there are three academic years, twelve classes, four sections and
    four fee structures, all distinct, and the schema accepts a value set
    exactly when each of these four fields holds an entry of its list. *)
Theorem option_lists_and_schema (v : EnrollmentFormValues) :
  (length academicYears = 3 /\ NoDup academicYears) /\
  (length classes = 12 /\ NoDup classes) /\
  (length sections = 4 /\ NoDup sections) /\
  (length feeStructures = 4 /\ NoDup feeStructures) /\
  ((exists d, enrollmentSchema v = success d) <->
   In (academicYear v) academicYears /\
   In (class v) classes /\
   In (section v) sections /\
   In (feeStructure v) feeStructures).
Proof.
  split; [split; [reflexivity | apply distinct_NoDup; reflexivity] |].
  split; [split; [reflexivity | apply distinct_NoDup; reflexivity] |].
  split; [split; [reflexivity | apply distinct_NoDup; reflexivity] |].
  split; [split; [reflexivity | apply distinct_NoDup; reflexivity] |].
  split.
  - intros [d Hd]. exact (schema_success_members v d Hd).
  - intros [Hy [Hc [Hs Hf]]]. exists v.
    apply enrollmentSchema_accepts. unfold all_enumerated.
    apply member_In in Hy, Hc, Hs, Hf. now rewrite Hy, Hc, Hs, Hf.
Qed.

End EnrollmentSpec.

(** * Properties of the teacher edit page *)

Module TeacherEditSpec.
Import TeacherEdit.

Section AnyFormValues.

Variable TeacherFormValues : Type.
Variable data_name : TeacherFormValues -> string.

Local Abbreviation EditTeacherPage :=
  (EditTeacherPage TeacherFormValues data_name).
Local Abbreviation handleSubmit :=
  (handleSubmit TeacherFormValues data_name).

Lemma find_unknown (id : option string) :
  (forall t, In t teachers -> Some (TeacherEdit.id t) <> id) ->
  find (id_matches id) teachers = None.
Proof.
  intros H. destruct (find (id_matches id) teachers) as [t |] eqn:E;
    [| reflexivity].
  apply find_some in E. destruct E as [Hin Hm].
  exfalso. apply (H t Hin).
  unfold id_matches in Hm. destruct id as [i |]; [| discriminate Hm].
  apply String.eqb_eq in Hm. now rewrite Hm.
Qed.

(** The identifiers of the mock data are pairwise different, so the lookup
    returns the one teacher that carries the identifier. *)
Lemma find_known (t : Teacher) :
  In t teachers ->
  find (id_matches (Some (TeacherEdit.id t))) teachers = Some t.
Proof.
  unfold teachers. simpl.
  intros [H | [H | [H | [H | [H | []]]]]]; subst t; reflexivity.
Qed.

Lemma render_known (t : Teacher) :
  In t teachers ->
  EditTeacherPage (Some (TeacherEdit.id t))
  = ([],
     AppLayout
       {| layout_title := "Edit Teacher: " ++ name t;
          back_onClick := [navigate ("/teachers/" ++ TeacherEdit.id t)];
          heading := "Edit Teacher Profile";
          editForm :=
            {| teacher := t;
               onSubmit := handleSubmit (Some (TeacherEdit.id t));
               onCancel := [navigate ("/teachers/" ++ TeacherEdit.id t)] |} |}).
Proof.
  intros Hin. unfold TeacherEdit.EditTeacherPage.
  now rewrite (find_known t Hin).
Qed.

Lemma short_trace_not_handleSubmit (e : Effect TeacherFormValues) :
  ~ invokes_handleSubmit TeacherFormValues data_name [e].
Proof.
  intros [id [data [pre [post H]]]].
  apply (f_equal (@length _)) in H.
  rewrite !length_app in H. simpl in H. lia.
Qed.

End AnyFormValues.

(** ** Unknown identifiers *)

(** C4: when no teacher of the data carries the route identifier (which
    includes a route without identifier), the page returns [null] and its
    render body calls [navigate("/teachers")]; on the first render the
    router ignores this call, so the page mounted at a location is blank
    and still at that location, not at the listing.  Only a later render
    of the mounted page would reach [/teachers]. *)
Theorem unknown_teacher_mount_not_redirected
    (TeacherFormValues : Type) (data_name : TeacherFormValues -> string)
    (id : option string) (loc : string) :
  (forall t, In t teachers -> Some (TeacherEdit.id t) <> id) ->
  EditTeacherPage TeacherFormValues data_name id
  = ([navigate "/teachers"], null) /\
  mount TeacherFormValues data_name loc id
  = ({| location := loc; active := true |}, null) /\
  render_in TeacherFormValues data_name
    {| location := loc; active := true |} id
  = ({| location := "/teachers"; active := true |}, null).
Proof.
  intros H. unfold mount, render_in, EditTeacherPage.
  rewrite (find_unknown id H). repeat split.
Qed.

Lemma unknown_teacher_mount_not_redirected_witness :
  EditTeacherPage NameOnly NameOnly_name (Some "6")
  = ([navigate "/teachers"], null) /\
  mount NameOnly NameOnly_name "/teachers/6/edit" (Some "6")
  = ({| location := "/teachers/6/edit"; active := true |}, null) /\
  render_in NameOnly NameOnly_name
    {| location := "/teachers/6/edit"; active := true |} (Some "6")
  = ({| location := "/teachers"; active := true |}, null).
Proof.
  apply (unknown_teacher_mount_not_redirected
           NameOnly NameOnly_name (Some "6") "/teachers/6/edit").
  unfold teachers. simpl.
  intros t [H | [H | [H | [H | [H | []]]]]]; subst t; discriminate.
Defined.

(** ** Saving *)



(** ** The text of the confirmation *)

(** C10: the one toast of a teacher submission has the submitted name
    followed by a fixed text as its description, whichever teacher the page
    was opened for and whatever name that teacher has in the data; the same
    submitted values give the same toast on every route. *)
Theorem teacher_toast_uses_submitted_name
    (TeacherFormValues : Type) (data_name : TeacherFormValues -> string)
    (id : option string) (t : Teacher) (data : TeacherFormValues) :
  In t teachers ->
  id = Some (TeacherEdit.id t) ->
  exists el,
    EditTeacherPage TeacherFormValues data_name id = ([], AppLayout el) /\
    toasts_of (onSubmit (editForm el) data)
    = [ {| title := "Teacher Updated";
           description :=
             data_name data
             ++ "'s information has been updated successfully.";
           duration := None |} ] /\
    forall id' : option string,
      toasts_of (handleSubmit TeacherFormValues data_name id' data)
      = toasts_of (onSubmit (editForm el) data).
Proof.
  intros Hin ->. rewrite (render_known _ data_name t Hin).
  eexists. split; [reflexivity |]. split; [reflexivity |].
  intros id'. reflexivity.
Qed.

Lemma teacher_toast_uses_submitted_name_witness :
  exists el,
    EditTeacherPage NameOnly NameOnly_name (Some "1") = ([], AppLayout el) /\
    toasts_of (onSubmit (editForm el) "Rahul S.")
    = [ {| title := "Teacher Updated";
           description :=
             "Rahul S.'s information has been updated successfully.";
           duration := None |} ] /\
    forall id' : option string,
      toasts_of (handleSubmit NameOnly NameOnly_name id' "Rahul S.")
      = toasts_of (onSubmit (editForm el) "Rahul S.").
Proof.
  apply (teacher_toast_uses_submitted_name
           NameOnly NameOnly_name (Some "1") teacher_1 "Rahul S.").
  - unfold teachers. simpl. left. reflexivity.
  - reflexivity.
Defined.

(** ** Cancelling *)

(** C9: the Cancel button of the dialog calls [onOpenChange(false)] and
    nothing else, so not [onSave]; the [onCancel] handed to the teacher form
    asks the router for [/teachers/<id>] and nothing else, so the calls of
    the submit handler do not occur. *)
Theorem cancel_never_saves
    (schema : Enrollment.Schema) (p : Enrollment.EditEnrollmentDialogProps)
    (prev : option Enrollment.Hooks) (s : Ref Enrollment.Student)
    (TeacherFormValues : Type) (data_name : TeacherFormValues -> string)
    (id : option string) (t : Teacher) :
  Enrollment.student p = Some s ->
  In t teachers ->
  id = Some (TeacherEdit.id t) ->
  (exists el,
      snd (Enrollment.EditEnrollmentDialog schema p prev)
      = Enrollment.Dialog el /\
      Enrollment.cancel_onClick el = [Enrollment.onOpenChange false] /\
      Enrollment.count_onSave (Enrollment.cancel_onClick el) = 0) /\
  (exists el,
      EditTeacherPage TeacherFormValues data_name id = ([], AppLayout el) /\
      onCancel (editForm el) = [navigate ("/teachers/" ++ TeacherEdit.id t)] /\
      ~ invokes_handleSubmit TeacherFormValues data_name
          (onCancel (editForm el))).
Proof.
  intros Hs Hin ->. split.
  - destruct (EnrollmentSpec.render_with_student schema p prev s Hs)
      as [el [Hel [_ [_ Hc]]]].
    exists el. rewrite Hc. repeat split. exact Hel.
  - rewrite (render_known _ data_name t Hin).
    eexists. split; [reflexivity |]. split; [reflexivity |].
    apply short_trace_not_handleSubmit.
Qed.

Lemma cancel_never_saves_witness :
  (exists el,
      snd (Enrollment.EditEnrollmentDialog Enrollment.enrollmentSchema
             (Enrollment.example_props true) None)
      = Enrollment.Dialog el /\
      Enrollment.cancel_onClick el = [Enrollment.onOpenChange false] /\
      Enrollment.count_onSave (Enrollment.cancel_onClick el) = 0) /\
  (exists el,
      EditTeacherPage NameOnly NameOnly_name (Some "3") = ([], AppLayout el) /\
      onCancel (editForm el) = [navigate "/teachers/3"] /\
      ~ invokes_handleSubmit NameOnly NameOnly_name (onCancel (editForm el))).
Proof.
  apply (cancel_never_saves
           Enrollment.enrollmentSchema (Enrollment.example_props true) None
           {| addr := 0; target := Enrollment.example_student |}
           NameOnly NameOnly_name (Some "3") teacher_3).
  - reflexivity.
  - unfold teachers. simpl. right. right. left. reflexivity.
  - reflexivity.
Defined.

End TeacherEditSpec.

(** * Further properties of the enrollment dialog: renders *)

Module EnrollmentRenders.
Import Enrollment.

Lemma deps_eqb_refl (d : Deps) : deps_eqb d d = true.
Proof.
  destruct d as [[a |] b]; unfold deps_eqb; simpl.
  - now rewrite Nat.eqb_refl, Bool.eqb_reflx.
  - now rewrite Bool.eqb_reflx.
Qed.

Lemma deps_eqb_other_student (d : Deps) (a : nat) (o : bool) :
  fst d <> Some a -> deps_eqb d (Some a, o) = false.
Proof.
  intros H. destruct d as [[b |] c]; unfold deps_eqb; simpl; [| reflexivity].
  destruct (Nat.eqb_spec b a) as [-> | Hne]; [| reflexivity].
  now contradiction H.
Qed.

Lemma js_or_empty_default (x : string) : js_or (Some x) "" = x.
Proof.
  unfold js_or. destruct (String.eqb_spec x "") as [-> | _]; reflexivity.
Qed.

(** A render with [open] false hands back the form of the previous render. *)
Lemma closed_render_form (schema : Schema) (p : EditEnrollmentDialogProps)
    (h : Hooks) :
  open p = false ->
  form (fst (EditEnrollmentDialog schema p (Some h))) = form h.
Proof.
  intros Ho. unfold EditEnrollmentDialog. rewrite Ho. simpl.
  destruct (student p) as [s |]; simpl;
    now destruct (negb (deps_eqb (effectDeps h) _)).
Qed.

Lemma same_deps_keeps_hooks (schema : Schema)
    (p : EditEnrollmentDialogProps) (h : Hooks) :
  effectDeps h = deps_of p ->
  fst (EditEnrollmentDialog schema p (Some h)) = h.
Proof.
  intros H. unfold EditEnrollmentDialog. simpl.
  fold (deps_of p). rewrite <- H, deps_eqb_refl. simpl.
  now destruct h.
Qed.

(** X1: a render whose student object and [open] flag are those of the
    previous render does not run the reset effect: the form, with the
    user's edits and the errors of the last attempt, is handed on as it
    is, and the dependencies stay. *)
Theorem rerender_same_props_keeps_form
    (schema : Schema) (p : EditEnrollmentDialogProps) (h : Hooks) :
  effectDeps h = deps_of p ->
  fst (EditEnrollmentDialog schema p (Some h)) = h.
Proof.
  intros H. unfold EditEnrollmentDialog, useEffect_runs. simpl.
  fold (deps_of p). rewrite <- H, deps_eqb_refl. simpl.
  destruct h as [f d]. reflexivity.
Qed.

Lemma rerender_same_props_keeps_form_witness :
  fst (EditEnrollmentDialog enrollmentSchema (example_props true)
         (Some {| form := {| values := example_values; errors := [] |};
                  effectDeps := (Some 0, true) |}))
  = {| form := {| values := example_values; errors := [] |};
       effectDeps := (Some 0, true) |}.
Proof.
  apply (rerender_same_props_keeps_form enrollmentSchema (example_props true)).
  reflexivity.
Defined.

(** X2: while the dialog is open, a render with a student object other than
    the one of the previous render (another address, whatever its content)
    resets the form to that student's values and clears the errors. *)
Theorem other_student_object_resets_form
    (schema : Schema) (p : EditEnrollmentDialogProps) (h : Hooks)
    (s : Ref Student) :
  student p = Some s ->
  open p = true ->
  fst (effectDeps h) <> Some (addr s) ->
  form (fst (EditEnrollmentDialog schema p (Some h)))
  = {| values :=
         {| studentId := id (target s);
            academicYear := currentYear (target s);
            class := currentClass (target s);
            section := currentSection (target s);
            rollNumber := "";
            feeStructure := "";
            status := "enrolled" |};
       errors := [] |}.
Proof.
  intros Hs Ho Hne. unfold EditEnrollmentDialog. rewrite Hs, Ho. simpl.
  now rewrite (deps_eqb_other_student _ _ true Hne).
Qed.

Lemma other_student_object_resets_form_witness :
  form (fst (EditEnrollmentDialog enrollmentSchema
               {| open := true;
                  student := Some {| addr := 1; target := example_student |} |}
               (Some {| form := {| values := example_values; errors := [] |};
                        effectDeps := (Some 0, true) |})))
  = {| values :=
         {| studentId := "s1"; academicYear := "2024-2025"; class := "X";
            section := "B"; rollNumber := ""; feeStructure := "";
            status := "enrolled" |};
       errors := [] |}.
Proof.
  apply (other_student_object_resets_form enrollmentSchema
           {| open := true;
              student := Some {| addr := 1; target := example_student |} |}
           _ {| addr := 1; target := example_student |});
    [reflexivity | reflexivity | discriminate].
Defined.

(** X4: on the first render with a student the form holds the student's
    identifier, class and section, an empty roll number and fee structure
    and the status "enrolled".  The academic year is the student's current
    year; only when the dialog is mounted closed is an empty current year
    replaced by 2024-2025, a dialog mounted open keeps it empty. *)
Theorem first_render_values
    (schema : Schema) (s : Ref Student) (o : bool) :
  form (fst (EditEnrollmentDialog schema
               {| open := o; student := Some s |} None))
  = {| values :=
         {| studentId := id (target s);
            academicYear :=
              if o then currentYear (target s)
              else if String.eqb (currentYear (target s)) ""
                   then "2024-2025"
                   else currentYear (target s);
            class := currentClass (target s);
            section := currentSection (target s);
            rollNumber := "";
            feeStructure := "";
            status := "enrolled" |};
       errors := [] |}.
Proof.
  unfold EditEnrollmentDialog. simpl. destruct o; simpl; [reflexivity |].
  unfold defaultValues. cbn [option_map].
  now rewrite !js_or_empty_default.
Qed.

End EnrollmentRenders.

(** * Further properties of the enrollment dialog: sessions *)

Module EnrollmentSessions.
Import Enrollment.

Section AnySchema.

Variable schema : Schema.

Lemma run_app (s : Session) (es1 es2 : list Event) :
  run schema s (es1 ++ es2) = run schema (run schema s es1) es2.
Proof. unfold run. apply fold_left_app. Qed.

Lemma render_status (p : EditEnrollmentDialogProps) (prev : option Hooks) :
  (forall h, prev = Some h -> status (values (form h)) = "enrolled") ->
  status (values (form (fst (EditEnrollmentDialog schema p prev))))
  = "enrolled".
Proof.
  intros H. unfold EditEnrollmentDialog. simpl.
  destruct prev as [h |]; simpl.
  - destruct (negb (deps_eqb (effectDeps h) _));
      [| now apply H].
    destruct (student p) as [s |]; simpl; [| now apply H].
    destruct (open p); simpl; [reflexivity | now apply H].
  - destruct (student p) as [s |]; simpl; [| reflexivity].
    destruct (open p); reflexivity.
Qed.

Lemma field_onChange_status (el_fields : list (FieldName * Control))
    (n : FieldName) (v : string) (f : FormState) :
  el_fields
  = [ (FacademicYear, Select academicYears); (Fclass, Select classes);
      (Fsection, Select sections); (FrollNumber, Input);
      (FfeeStructure, Select feeStructures) ] ->
  offered el_fields n v = true ->
  status (values (field_onChange n v f)) = status (values f).
Proof.
  intros -> Hoff. destruct n; try reflexivity; discriminate Hoff.
Qed.

(** What a dialog element returned by the component is made of. *)
Lemma dialog_of_render (p : EditEnrollmentDialogProps) (prev : option Hooks)
    (el : DialogElement) :
  snd (EditEnrollmentDialog schema p prev) = Dialog el ->
  exists st,
    student p = Some st /\
    dialog_open el = open p /\
    formFields el
    = [ (FacademicYear, Select academicYears); (Fclass, Select classes);
        (Fsection, Select sections); (FrollNumber, Input);
        (FfeeStructure, Select feeStructures) ] /\
    form_onSubmit el = handleSubmit schema (onSubmit (Some (target st))) /\
    cancel_onClick el = [onOpenChange false].
Proof.
  unfold EditEnrollmentDialog. simpl.
  destruct (student p) as [st |]; simpl; intros H; [| discriminate H].
  injection H as <-. exists st. repeat split.
Qed.

(** The user never changes the view, nor the recorded dependencies. *)
Lemma step_user_view (s : Session) (u : UserEvent) :
  view (step schema s (User u)) = view s /\
  option_map effectDeps (hooks (step schema s (User u)))
  = option_map effectDeps (hooks s).
Proof.
  destruct s as [hk vw cl]. unfold step. simpl.
  destruct vw as [| el]; [now split |].
  destruct hk as [h |]; [| now split].
  destruct (dialog_open el); [| now split].
  destruct u as [n v | |]; simpl.
  - destruct (offered (formFields el) n v); now split.
  - destruct (form_onSubmit el (form h)); now split.
  - now split.
Qed.

Lemma step_invariant (s : Session) (e : Event) :
  session_invariant schema s -> session_invariant schema (step schema s e).
Proof.
  intros [[p [prev Hv]] [Hst Htr]]. destruct e as [q | u].
  - unfold step.
    destruct (EditEnrollmentDialog schema q (hooks s)) as [h r] eqn:E.
    split; [| split].
    + exists q, (hooks s). rewrite E. reflexivity.
    + simpl. intros h' Hh'. injection Hh' as <-.
      change h with (fst (h, r)). rewrite <- E.
      now apply render_status.
    + exact Htr.
  - pose proof (proj1 (step_user_view s u)) as Hv0. split.
    { exists p, prev. now rewrite Hv0. }
    clear Hv0. destruct s as [hk vw cl]. unfold step. simpl in *.
    destruct vw as [| el]; [now split |].
    destruct hk as [h |]; [| now split].
    destruct (dialog_open el); [| now split].
    symmetry in Hv.
    destruct (dialog_of_render p prev el Hv)
      as [st [_ [_ [Hfields [Hsub Hcan]]]]].
    destruct u as [n v | |]; simpl.
    + destruct (offered (formFields el) n v) eqn:Hoff; simpl;
        (split; [| now rewrite app_nil_r]);
        intros h' Hh'; injection Hh' as <-.
      * cbn [form].
        rewrite (field_onChange_status _ n v (form h) Hfields Hoff).
        now apply Hst.
      * now apply Hst.
    + rewrite Hsub. unfold handleSubmit.
      destruct (schema (values (form h))) as [d | issues] eqn:Hs; simpl;
        split.
      * intros h' Hh'. injection Hh' as <-. simpl. now apply Hst.
      * now apply (trace_save schema _ (target st) (values (form h)) d).
      * intros h' Hh'. injection Hh' as <-. simpl. now apply Hst.
      * now rewrite app_nil_r.
    + rewrite Hcan. split.
      * intros h' Hh'. injection Hh' as <-. now apply Hst.
      * now apply trace_cancel.
Qed.

Lemma run_invariant (es : list Event) (s : Session) :
  session_invariant schema s -> session_invariant schema (run schema s es).
Proof.
  revert s. induction es as [| e es IH]; intros s H; simpl.
  - exact H.
  - apply IH. now apply step_invariant.
Qed.

Lemma initial_invariant : session_invariant schema initial.
Proof.
  split; [| split].
  - exists {| open := false; student := None |}, None. reflexivity.
  - intros h H. discriminate H.
  - constructor.
Qed.

Lemma handler_trace_onSave (t : list Effect) (d : EnrollmentFormValues) :
  handler_trace schema t -> In (onSave d) t ->
  exists x, schema x = success d.
Proof.
  induction 1 as [| t Ht IH | t st x d' Ht IH Hx]; intros Hin.
  - destruct Hin.
  - apply in_app_or in Hin. destruct Hin as [Hin | Hin]; [now apply IH |].
    destruct Hin as [Hin | []]. discriminate Hin.
  - apply in_app_or in Hin. destruct Hin as [Hin | Hin]; [now apply IH |].
    simpl in Hin.
    destruct Hin as [Hin | [Hin | [Hin | [Hin | []]]]]; try discriminate Hin.
    injection Hin as ->. now exists x.
Qed.

Lemma run_users_view (us : list UserEvent) (s : Session) :
  view (run schema s (map User us)) = view s /\
  option_map effectDeps (hooks (run schema s (map User us)))
  = option_map effectDeps (hooks s).
Proof.
  unfold run. revert s.
  induction us as [| u us IH]; intros s; cbn [map fold_left]; [now split |].
  destruct (IH (step schema s (User u))) as [Hv Hd].
  destruct (step_user_view s u) as [Hv' Hd'].
  split; congruence.
Qed.

Lemma step_user_closed (s : Session) (u : UserEvent) :
  view_closed (view s) -> step schema s (User u) = s.
Proof.
  destruct s as [hk vw cl]. unfold step. simpl.
  destruct vw as [| el]; simpl; [reflexivity |].
  intros ->. now destruct hk.
Qed.

Lemma closed_render_view (p : EditEnrollmentDialogProps)
    (prev : option Hooks) :
  open p = false ->
  view_closed (snd (EditEnrollmentDialog schema p prev)).
Proof.
  intros Ho. unfold EditEnrollmentDialog. simpl.
  destruct (student p); simpl; [exact Ho | exact I].
Qed.

Lemma closed_run (es : list Event) (s : Session) (h : Hooks) :
  hooks s = Some h ->
  view_closed (view s) ->
  Forall closed_event es ->
  option_map form (hooks (run schema s es)) = Some (form h) /\
  calls (run schema s es) = calls s.
Proof.
  revert s h. induction es as [| e es IH]; intros s h Hh Hv Hes; simpl.
  - rewrite Hh. now split.
  - inversion Hes as [| e' es' He Hes']; subst.
    destruct e as [q | u].
    + simpl in He. unfold step.
      destruct (EditEnrollmentDialog schema q (hooks s)) as [h1 r] eqn:E.
      assert (Hf : form h1 = form h).
      { change h1 with (fst (h1, r)). rewrite <- E, Hh.
        now apply EnrollmentRenders.closed_render_form. }
      assert (Hr : view_closed r).
      { change r with (snd (h1, r)). rewrite <- E.
        now apply closed_render_view. }
      rewrite <- Hf.
      apply (IH {| hooks := Some h1; view := r; calls := calls s |} h1);
        [reflexivity | exact Hr | exact Hes'].
    + rewrite (step_user_closed s u Hv). now apply IH.
Qed.

Lemma step_submit_valid (s : Session) (h : Hooks) (el : DialogElement)
    (st : Student) (d : EnrollmentFormValues) :
  view s = Dialog el ->
  hooks s = Some h ->
  dialog_open el = true ->
  form_onSubmit el = handleSubmit schema (onSubmit (Some st)) ->
  schema (values (form h)) = success d ->
  step schema s (User Submit)
  = {| hooks :=
         Some {| form := {| values := values (form h); errors := [] |};
                 effectDeps := effectDeps h |};
       view := Dialog el;
       calls := calls s ++ onSubmit (Some st) d |}.
Proof.
  intros Hv Hh Ho Hsub Hd. destruct s as [hk vw cl]. simpl in *. subst.
  unfold step. simpl. rewrite Ho. simpl. rewrite Hsub.
  unfold handleSubmit. now rewrite Hd.
Qed.

End AnySchema.

(** ** What the user cannot change *)

(** X5: in every session, whatever is rendered and whatever the user does,
    the status held by the form is "enrolled": no control is bound to it,
    and both the initial values and the reset write "enrolled". *)
Theorem status_stays_enrolled
    (schema : Schema) (es : list Event) (h : Hooks) :
  hooks (run schema initial es) = Some h ->
  status (values (form h)) = "enrolled".
Proof.
  intros H.
  destruct (run_invariant schema es initial (initial_invariant schema))
    as [_ [Hst _]].
  now apply Hst.
Qed.

Lemma status_stays_enrolled_witness :
  status
    (values
       (form {| form :=
                  {| values :=
                       {| studentId := "s1"; academicYear := "2024-2025";
                          class := "X"; section := "B"; rollNumber := "";
                          feeStructure := "Arts Stream - ₹45,000/year";
                          status := "enrolled" |};
                     errors := [] |};
                effectDeps := (Some 0, true) |}))
  = "enrolled".
Proof.
  apply (status_stays_enrolled enrollmentSchema
           [ Render (example_props true);
             User (Change Fstatus "left");
             User (Change FfeeStructure "Arts Stream - ₹45,000/year") ]).
  reflexivity.
Defined.

(** ** The calls of a session *)

(** X6: the calls made in a session are a sequence of handler runs: each
    run is the single [onOpenChange(false)] of Cancel, or the four calls of
    a save (console log, [onSave], toast, [onOpenChange(false)]) on data the
    schema returned; a render and a change of a field call nothing. *)
Theorem session_calls_are_handler_runs (schema : Schema) (es : list Event) :
  handler_trace schema (calls (run schema initial es)).
Proof.
  now destruct (run_invariant schema es initial (initial_invariant schema))
    as [_ [_ Htr]].
Qed.

(** X7: whatever is rendered and whatever the user does, [onSave] is only
    ever called with data that the schema returned as valid. *)
Theorem onSave_only_validated_data
    (schema : Schema) (es : list Event) (d : EnrollmentFormValues) :
  In (onSave d) (calls (run schema initial es)) ->
  exists x, schema x = success d.
Proof.
  apply handler_trace_onSave.
  now destruct (run_invariant schema es initial (initial_invariant schema))
    as [_ [_ Htr]].
Qed.

Lemma onSave_only_validated_data_witness :
  exists x, enrollmentSchema x = success example_values.
Proof.
  apply (onSave_only_validated_data enrollmentSchema
           [ Render (example_props true);
             User (Change FrollNumber "12");
             User (Change FfeeStructure "Standard Fee - ₹50,000/year");
             User Submit ]).
  simpl. right. left. reflexivity.
Defined.

(** ** While the dialog is closed *)

(** X3: once the dialog is rendered closed, and as long as it is not
    rendered open again, the form keeps the values and errors it had, for
    whichever student it is rendered, and no callback is called: closing
    does not discard the edits, the next opening does. *)
Theorem closed_dialog_keeps_form
    (schema : Schema) (s : Session) (h : Hooks)
    (p : EditEnrollmentDialogProps) (es : list Event) :
  hooks s = Some h ->
  open p = false ->
  Forall closed_event es ->
  option_map form (hooks (run schema s (Render p :: es))) = Some (form h) /\
  calls (run schema s (Render p :: es)) = calls s.
Proof.
  intros Hh Ho Hes.
  change (run schema s (Render p :: es))
    with (run schema (step schema s (Render p)) es).
  unfold step.
  destruct (EditEnrollmentDialog schema p (hooks s)) as [h1 r] eqn:E.
  assert (Hf : form h1 = form h).
  { change h1 with (fst (h1, r)). rewrite <- E, Hh.
    now apply EnrollmentRenders.closed_render_form. }
  assert (Hr : view_closed r).
  { change r with (snd (h1, r)). rewrite <- E.
    now apply closed_render_view. }
  rewrite <- Hf.
  apply (closed_run schema es
           {| hooks := Some h1; view := r; calls := calls s |} h1);
    [reflexivity | exact Hr | exact Hes].
Qed.

Lemma closed_dialog_keeps_form_witness :
  option_map form
    (hooks
       (run enrollmentSchema
          {| hooks :=
               Some {| form := {| values := example_values; errors := [] |};
                       effectDeps := (Some 0, true) |};
             view := null;
             calls := [] |}
          [ Render (example_props false);
            User Submit;
            Render {| open := false; student := None |} ]))
  = Some {| values := example_values; errors := [] |} /\
  calls
    (run enrollmentSchema
       {| hooks :=
            Some {| form := {| values := example_values; errors := [] |};
                    effectDeps := (Some 0, true) |};
          view := null;
          calls := [] |}
       [ Render (example_props false);
         User Submit;
         Render {| open := false; student := None |} ])
  = [].
Proof.
  apply (closed_dialog_keeps_form enrollmentSchema
           {| hooks :=
                Some {| form := {| values := example_values; errors := [] |};
                        effectDeps := (Some 0, true) |};
              view := null;
              calls := [] |}
           {| form := {| values := example_values; errors := [] |};
              effectDeps := (Some 0, true) |}
           (example_props false)
           [ User Submit; Render {| open := false; student := None |} ]).
  - reflexivity.
  - reflexivity.
  - repeat constructor.
Defined.

(** ** Saving twice *)

(** X8: after a save, if the parent renders the dialog again still open
    and with the same student object, the form still holds the saved
    values, and a second Save makes the same four calls again: [onSave] is
    called a second time with the same data. *)
Theorem save_again_after_rerender
    (schema : Schema) (s0 : Session) (p : EditEnrollmentDialogProps)
    (st : Ref Student) (us : list UserEvent) (h : Hooks)
    (d : EnrollmentFormValues) :
  student p = Some st ->
  open p = true ->
  hooks (run schema s0 (Render p :: map User us)) = Some h ->
  schema (values (form h)) = success d ->
  calls (run schema s0
           ((Render p :: map User us)
            ++ [User Submit; Render p; User Submit]))
  = (calls (run schema s0 (Render p :: map User us))
     ++ onSubmit (Some (target st)) d
     ++ onSubmit (Some (target st)) d)%list.
Proof.
  intros Hst Ho Hh Hd. rewrite run_app.
  remember (run schema s0 (Render p :: map User us)) as s1 eqn:Hs1.
  change (run schema s0 (Render p :: map User us))
    with (run schema (step schema s0 (Render p)) (map User us)) in Hs1.
  destruct (run_users_view schema us (step schema s0 (Render p)))
    as [Hview Hdeps].
  rewrite <- Hs1 in Hview, Hdeps.
  assert (Hv0 : view (step schema s0 (Render p))
                = snd (EditEnrollmentDialog schema p (hooks s0))).
  { unfold step. now destruct (EditEnrollmentDialog schema p (hooks s0)). }
  assert (Hd0 : option_map effectDeps (hooks (step schema s0 (Render p)))
                = Some (deps_of p)).
  { unfold step, EditEnrollmentDialog. reflexivity. }
  rewrite Hv0 in Hview. rewrite Hd0, Hh in Hdeps. simpl in Hdeps.
  injection Hdeps as Hdeps.
  destruct (view s1) as [| el] eqn:Hel.
  { unfold EditEnrollmentDialog in Hview. rewrite Hst in Hview.
    discriminate Hview. }
  symmetry in Hview.
  destruct (dialog_of_render schema p (hooks s0) el Hview)
    as [st' [Hst' [Hopen [_ [Hsub _]]]]].
  rewrite Hst in Hst'. injection Hst' as <-. rewrite Ho in Hopen.
  unfold run. cbn [fold_left].
  rewrite (step_submit_valid schema s1 h el (target st) d
             Hel Hh Hopen Hsub Hd).
  set (h2 := {| form := {| values := values (form h); errors := [] |};
                effectDeps := effectDeps h |}).
  assert (Hrender :
            step schema
              {| hooks := Some h2; view := Dialog el;
                 calls := calls s1 ++ onSubmit (Some (target st)) d |}
              (Render p)
            = {| hooks := Some h2; view := Dialog el;
                 calls := calls s1 ++ onSubmit (Some (target st)) d |}).
  { unfold step. cbn [hooks calls].
    pose proof (EnrollmentRenders.same_deps_keeps_hooks
                  schema p h2 Hdeps) as Hk.
    destruct (EditEnrollmentDialog schema p (Some h2)) as [h3 r] eqn:E.
    simpl in Hk. subst h3.
    replace r with (Dialog el); [reflexivity |].
    change r with (snd (h2, r)). rewrite <- E, <- Hview. reflexivity. }
  rewrite Hrender.
  rewrite (step_submit_valid schema
             {| hooks := Some h2; view := Dialog el;
                calls := calls s1 ++ onSubmit (Some (target st)) d |}
             h2 el (target st) d eq_refl eq_refl Hopen Hsub Hd).
  simpl. now rewrite <- app_assoc.
Qed.

Lemma save_again_after_rerender_witness :
  calls
    (run enrollmentSchema initial
       ((Render (example_props true)
         :: map User
              [ Change FrollNumber "12";
                Change FfeeStructure "Standard Fee - ₹50,000/year" ])
        ++ [User Submit; Render (example_props true); User Submit]))
  = (calls
       (run enrollmentSchema initial
          (Render (example_props true)
           :: map User
                [ Change FrollNumber "12";
                  Change FfeeStructure "Standard Fee - ₹50,000/year" ]))
     ++ onSubmit (Some example_student) example_values
     ++ onSubmit (Some example_student) example_values)%list.
Proof.
  apply (save_again_after_rerender
           enrollmentSchema initial (example_props true)
           {| addr := 0; target := example_student |}
           [ Change FrollNumber "12";
             Change FfeeStructure "Standard Fee - ₹50,000/year" ]
           {| form := {| values := example_values; errors := [] |};
              effectDeps := (Some 0, true) |}
           example_values);
    reflexivity.
Defined.

End EnrollmentSessions.

(** * Further properties of the teacher edit page *)

Module TeacherPageCases.
Import TeacherEdit.

Lemma id_matches_true (id : option string) (t : Teacher) :
  id_matches id t = true -> id = Some (TeacherEdit.id t).
Proof.
  unfold id_matches. destruct id as [i |]; [| discriminate].
  intros H. apply String.eqb_eq in H. now rewrite H.
Qed.

Lemma id_matches_false (id : option string) (t : Teacher) :
  id_matches id t = false -> Some (TeacherEdit.id t) <> id.
Proof.
  unfold id_matches. destruct id as [i |]; [| discriminate].
  intros H E. injection E as E. rewrite E, String.eqb_refl in H.
  discriminate H.
Qed.

(** X9: the page has two outcomes.  It returns [null] after asking the
    router for [/teachers], and then no teacher of the data carries the
    route identifier; or it asks the router for nothing and returns the
    layout with the form, and then the teacher in the form is a teacher of
    the data whose identifier is the route identifier and whose name is in
    the title. *)
Theorem page_outcomes
    (TeacherFormValues : Type) (data_name : TeacherFormValues -> string)
    (id : option string) :
  match EditTeacherPage TeacherFormValues data_name id with
  | (calls, null) =>
    calls = [navigate "/teachers"] /\
    forall t, In t teachers -> Some (TeacherEdit.id t) <> id
  | (calls, AppLayout el) =>
    calls = [] /\
    In (teacher (editForm el)) teachers /\
    id = Some (TeacherEdit.id (teacher (editForm el))) /\
    layout_title el = "Edit Teacher: " ++ name (teacher (editForm el))
  end.
Proof.
  unfold EditTeacherPage.
  destruct (find (id_matches id) teachers) as [t |] eqn:E.
  - apply find_some in E. destruct E as [Hin Hm]. simpl.
    repeat split; [exact Hin | now apply id_matches_true].
  - split; [reflexivity |]. intros t Hin.
    apply id_matches_false. exact (find_none _ _ E t Hin).
Qed.

(** X10: whenever the page renders the form, the back button, the cancel
    handler and the submit handler each ask the router once, for the detail
    view [/teachers/<id>] of the teacher in the form; in particular no
    handler of a rendered page asks for [/teachers/undefined]. *)
Theorem handlers_navigate_to_detail
    (TeacherFormValues : Type) (data_name : TeacherFormValues -> string)
    (id : option string) (calls : list (Effect TeacherFormValues))
    (el : PageElement TeacherFormValues) (data : TeacherFormValues) :
  EditTeacherPage TeacherFormValues data_name id = (calls, AppLayout el) ->
  navigations (back_onClick el)
  = ["/teachers/" ++ TeacherEdit.id (teacher (editForm el))] /\
  navigations (onCancel (editForm el))
  = ["/teachers/" ++ TeacherEdit.id (teacher (editForm el))] /\
  navigations (onSubmit (editForm el) data)
  = ["/teachers/" ++ TeacherEdit.id (teacher (editForm el))].
Proof.
  unfold EditTeacherPage.
  destruct (find (id_matches id) teachers) as [t |] eqn:E;
    [| discriminate].
  apply find_some in E. destruct E as [_ Hm].
  apply id_matches_true in Hm. subst id.
  intros H. injection H as _ <-. simpl. repeat split.
Qed.

Lemma handlers_navigate_to_detail_witness :
  navigations
    (back_onClick
       {| layout_title := "Edit Teacher: Sunita Reddy";
          back_onClick := [navigate "/teachers/4"];
          heading := "Edit Teacher Profile";
          editForm :=
            {| teacher := teacher_4;
               onSubmit := handleSubmit NameOnly NameOnly_name (Some "4");
               onCancel := [navigate "/teachers/4"] |} |})
  = ["/teachers/4"] /\
  navigations [@navigate NameOnly "/teachers/4"] = ["/teachers/4"] /\
  navigations (handleSubmit NameOnly NameOnly_name (Some "4") "S. Reddy")
  = ["/teachers/4"].
Proof.
  exact (handlers_navigate_to_detail NameOnly NameOnly_name (Some "4") []
           {| layout_title := "Edit Teacher: Sunita Reddy";
              back_onClick := [navigate "/teachers/4"];
              heading := "Edit Teacher Profile";
              editForm :=
                {| teacher := teacher_4;
                   onSubmit := handleSubmit NameOnly NameOnly_name (Some "4");
                   onCancel := [navigate "/teachers/4"] |} |}
           "S. Reddy" eq_refl).
Defined.

End TeacherPageCases.
